(** * Verification of the S3 presigned-URL service (main.py)

    The service is one FastAPI module: module-level configuration read from
    the process environment at import time, a handler that asks the boto3
    S3 client for a presigned PUT URL, and a health handler.

    The embedding follows the module top to bottom:
    - [Py]        : the Python values, exceptions and effects the handlers use;
    - [Startup]   : the module's top level, lines 43-57;
    - [Handlers]  : [generate_presigned_url] and [health_check];
    - [FastAPI]   : what the route decorators do around a handler;
    - [Spec]      : the vocabulary of the statements;
    - [Samples]   : concrete processes the statements are tried on. *)

From Stdlib Require Import ZArith Lia Ascii String List.
From stdpp Require Import base option list strings pretty gmap.

Local Open Scope Z_scope.
Local Open Scope string_scope.
Local Open Scope list_scope.

(** ** Python values and effects *)

Module Py.

(** Exceptions that travel through the handler.  [HTTPException] is the
    FastAPI class; [ClientError] is botocore's; [OtherException] stands for
    every other subclass of [Exception] (its class name and its [str]). *)
Inductive exn : Type :=
  | HTTPException (status_code : Z) (detail : string)
  | ClientError (msg : string)
  | OtherException (cls : string) (msg : string).

(** [str(e)] as used by the f-strings of the handler (Starlette prints an
    [HTTPException] as its status code, a colon and its detail). *)
Definition str_exn (e : exn) : string :=
  match e with
  | HTTPException sc d => pretty sc +:+ ": " +:+ d
  | ClientError m => m
  | OtherException _ m => m
  end.

(** [isinstance(e, ClientError)], the test of the first [except] clause. *)
Definition is_ClientError (e : exn) : bool :=
  match e with
  | ClientError _ => true
  | _ => false
  end.

(** Truthiness of an [Optional[str]]: [None] and [""] are falsy. *)
Definition truthy (v : option string) : bool :=
  match v with
  | None => false
  | Some s => negb (String.eqb s "")
  end.

(** The keyword arguments of one [s3_client.generate_presigned_url] call. *)
Record presign_call : Type := PresignCall {
  ClientMethod : string;
  Bucket : string;
  Key : string;
  ExpiresIn : Z;
  HttpMethod : string
}.

(** A log record of the module's [logger]. *)
Inductive log_record : Type :=
  | LogError (msg : string)
  | LogInfo (msg : string).

(** The module-level names the handlers read. *)
Record globals : Type := Globals {
  S3_BUCKET : option string;
  AWS_REGION : option string;
  PRESIGNED_URL_EXPIRATION : Z
}.

(** The S3 client is outside the repository.  What it does apart from
    validating the parameters (see [validated]) is an oracle that answers a
    call, given the calls made before it (signatures embed the clock and the
    credentials, so two calls with equal arguments need not agree), with a
    URL or with a raised exception. *)
Definition s3_oracle : Type := list presign_call -> presign_call -> exn + string.

(** Everything a request can see or touch. *)
Record world : Type := World {
  module_globals : globals;
  s3_client : s3_oracle;
  s3_calls : list presign_call;
  log : list log_record
}.

(** Computations: a world transformer that returns a value or raises. *)
Definition M (A : Type) : Type := world -> (exn + A) * world.

Definition ret {A} (a : A) : M A := fun w => (inr a, w).

Definition raise {A} (e : exn) : M A := fun w => (inl e, w).

Definition bind {A B} (m : M A) (k : A -> M B) : M B :=
  fun w =>
    match m w with
    | (inr a, w') => k a w'
    | (inl e, w') => (inl e, w')
    end.

(** [try: body except ...: handler e]; the handler decides which classes it
    takes by re-raising the others. *)
Definition try_except {A} (body : M A) (handler : exn -> M A) : M A :=
  fun w =>
    match body w with
    | (inr a, w') => (inr a, w')
    | (inl e, w') => handler e w'
    end.

Definition read_global {A} (f : globals -> A) : M A :=
  fun w => (inr (f (module_globals w)), w).

Definition logger_error (msg : string) : M unit :=
  fun w => (inr tt, World (module_globals w) (s3_client w) (s3_calls w)
                          (log w ++ [LogError msg])).

Definition logger_info (msg : string) : M unit :=
  fun w => (inr tt, World (module_globals w) (s3_client w) (s3_calls w)
                          (log w ++ [LogInfo msg])).

(** botocore's [ParamValidationError] (a [BotoCoreError], not a
    [ClientError]) for a Key of length 0. *)
Definition invalid_key_length : exn :=
  OtherException "ParamValidationError"
    ("Parameter validation failed:" +:+ String "010" ""
     +:+ "Invalid length for parameter Key, value: 0, valid min length: 1").

(** The client of line 51 is built with botocore's parameter validation on
    (the [Config] given there does not turn it off), and the S3 model gives
    Key a minimal length of 1.  So a call with an empty Key never returns a
    URL: whatever the rest of the client raises is raised, and where it
    would have signed, the validation raises. *)
Definition validated (signer : s3_oracle) : s3_oracle :=
  fun earlier c =>
    if String.eqb (Key c) "" then
      match signer earlier c with
      | inl e => inl e
      | inr _ => inl invalid_key_length
      end
    else signer earlier c.

(** [s3_client.generate_presigned_url(ClientMethod, Params={'Bucket', 'Key'},
    ExpiresIn=..., HttpMethod=...)]: the call is recorded, the client
    answers. *)
Definition s3_generate_presigned_url (c : presign_call) : M string :=
  fun w =>
    (validated (s3_client w) (s3_calls w) c,
     World (module_globals w) (s3_client w) (s3_calls w ++ [c]) (log w)).

End Py.

(** ** Module start-up (lines 43-57) *)

Module Startup.
Import Py.

(** What [os.getenv(key, default)] can return here. *)
Inductive value : Type :=
  | Str (s : string)
  | Int (n : Z).

(** [os.getenv(key)]: the variable's text, or [None]. *)
Definition os_getenv (environ : gmap string string) (key : string)
    : option string :=
  environ !! key.

(** [os.getenv(key, default)]. *)
Definition os_getenv_default (environ : gmap string string) (key : string)
    (default : value) : value :=
  match environ !! key with
  | Some s => Str s
  | None => default
  end.

(** *** [int(text)], base 10

    Text is a string of bytes (UTF-8).  [int] first brings a text that is
    not ASCII into ASCII, with the interpreter's Unicode database; an ASCII
    text is parsed as it is. *)

(** What of the interpreter [int] depends on: the limit on the digits of a
    literal ([sys.get_int_max_str_digits()], 0 for none) and, for a text
    that is not ASCII, its rewriting with Unicode spaces as [" "], Unicode
    decimal digits as ASCII digits and the text cut with a ["?"] at the
    first character that is neither. *)
Record interpreter : Type := Interpreter {
  max_str_digits : N;
  transform_decimal_and_space : string -> list ascii
}.

(** Literals of up to this many digits are never checked against the limit
    ([sys.int_info.str_digits_check_threshold]). *)
Definition str_digits_check_threshold : N := 640.

(** Every byte is an ASCII character. *)
Definition is_ascii_text (s : string) : bool :=
  forallb (fun c => (N_of_ascii c <? 128)%N) (list_ascii_of_string s).

Definition ascii_form (py : interpreter) (s : string) : list ascii :=
  if is_ascii_text s then list_ascii_of_string s
  else transform_decimal_and_space py s.

(** White space of the parser: tab, line feed, vertical tab, form feed,
    carriage return and space. *)
Definition is_space (c : ascii) : bool :=
  let n := N_of_ascii c in
  ((9 <=? n) && (n <=? 13) || (n =? 32))%N.

Definition digit_value (c : ascii) : option Z :=
  let n := Z.of_N (N_of_ascii c) in
  if ((48 <=? n) && (n <=? 57))%Z then Some (n - 48) else None.

Fixpoint lstrip (cs : list ascii) : list ascii :=
  match cs with
  | c :: rest => if is_space c then lstrip rest else cs
  | [] => []
  end.

Definition rstrip (cs : list ascii) : list ascii :=
  rev (lstrip (rev cs)).

Definition strip (cs : list ascii) : list ascii :=
  rstrip (lstrip cs).

(** The digit loop: digits accumulate in base 10; one underscore is allowed
    between two digits.  Returns the value and the number of digits read. *)
Fixpoint int_digits (acc : Z) (count : N) (after_digit : bool)
    (cs : list ascii) : option (Z * N) :=
  match cs with
  | [] => if after_digit then Some (acc, count) else None
  | c :: rest =>
      match digit_value c with
      | Some d => int_digits (10 * acc + d) (count + 1) true rest
      | None =>
          if Ascii.eqb c "_" && after_digit
          then int_digits acc count false rest
          else None
      end
  end.

(** An optional sign comes first. *)
Definition split_sign (cs : list ascii) : bool * list ascii :=
  match cs with
  | "+"%char :: rest => (false, rest)
  | "-"%char :: rest => (true, rest)
  | _ => (false, cs)
  end.

(** The parser on ASCII text; [None] is [ValueError].  Only a literal of
    more digits than the threshold is checked against the limit. *)
Definition int_of_ascii (limit : N) (cs : list ascii) : option Z :=
  let '(negative, body) := split_sign (strip cs) in
  match int_digits 0 0 false body with
  | Some (n, count) =>
      if ((str_digits_check_threshold <? count)
          && (0 <? limit) && (limit <? count))%N
      then None
      else Some (if negative then - n else n)
  | None => None
  end.

(** [int(s)] for a [str]. *)
Definition int_of_str (py : interpreter) (s : string) : option Z :=
  int_of_ascii (max_str_digits py) (ascii_form py s).

(** [int(v)]: an [int] is returned as it is. *)
Definition int (py : interpreter) (v : value) : option Z :=
  match v with
  | Int n => Some n
  | Str s => int_of_str py s
  end.

(** *** The module's top level *)

(** [boto3.client('s3', region_name=AWS_REGION, config=...)] of line 51 is
    outside the repository: given the environment and the region it
    returns a client or raises (a profile that does not exist, a region
    that is not valid). *)
Definition boto3_factory : Type :=
  gmap string string -> option string -> exn + s3_oracle.

Inductive startup : Type :=
  | Started (w : world)
  | ValueError (literal : value)
  | ClientFailed (e : exn).

(** Lines 43-45, with [environ] the process environment after
    [load_dotenv()]; [inl v] is the [ValueError] of [int(v)]. *)
Definition load_configuration (py : interpreter)
    (environ : gmap string string) : value + globals :=
  let S3_BUCKET := os_getenv environ "S3_BUCKET_NAME" in
  let AWS_REGION := os_getenv environ "AWS_REGION" in
  let v := os_getenv_default environ "PRESIGNED_URL_EXPIRATION" (Int 3600) in
  match int py v with
  | Some PRESIGNED_URL_EXPIRATION =>
      inr (Globals S3_BUCKET AWS_REGION PRESIGNED_URL_EXPIRATION)
  | None => inl v
  end.

(** The process after start-up: the module's names are bound, the S3 client
    exists, nothing has been called or logged. *)
Definition initial_world (g : globals) (client : s3_oracle) : world :=
  World g client [] [].

(** The top level up to line 57: the configuration, then the client. *)
Definition module_init (py : interpreter) (boto3_client : boto3_factory)
    (environ : gmap string string) : startup :=
  match load_configuration py environ with
  | inl v => ValueError v
  | inr g =>
      match boto3_client environ (AWS_REGION g) with
      | inl e => ClientFailed e
      | inr client => Started (initial_world g client)
      end
  end.

(** *** What a decimal integer literal is

    Written down independently of the parser: the characters by name, the
    grammar of the digits, the positional value of a digit sequence. *)

(** Where [c] stands in [cs], counting from 0. *)
Fixpoint position (c : ascii) (cs : list ascii) : option Z :=
  match cs with
  | [] => None
  | x :: rest =>
      if Ascii.eqb x c then Some 0
      else match position c rest with
           | Some i => Some (i + 1)
           | None => None
           end
  end.

(** A digit is worth its place among the ten digits. *)
Definition literal_digit (c : ascii) : option Z :=
  position c (list_ascii_of_string "0123456789").

(** Space, tab, line feed, vertical tab, form feed, carriage return. *)
Definition literal_space (c : ascii) : bool :=
  existsb (Ascii.eqb c) [" "; "009"; "010"; "011"; "012"; "013"]%char.

(** [digit ("_"? digit)*], with the digits it holds. *)
Inductive literal_body : list ascii -> list Z -> Prop :=
  | body_last c d :
      literal_digit c = Some d -> literal_body [c] [d]
  | body_digit c d cs ds :
      literal_digit c = Some d -> literal_body cs ds ->
      literal_body (c :: cs) (d :: ds)
  | body_underscore c d cs ds :
      literal_digit c = Some d -> literal_body cs ds ->
      literal_body (c :: "_"%char :: cs) (d :: ds).

(** Most significant digit first. *)
Fixpoint positional (ds : list Z) : Z :=
  match ds with
  | [] => 0
  | d :: rest => d * 10 ^ Z.of_nat (length rest) + positional rest
  end.

(** The digit limit lets a literal of [digits] digits through: it is short,
    or there is no limit, or it is within the limit. *)
Definition within_limit (limit : N) (digits : nat) : Prop :=
  (N.of_nat digits <= str_digits_check_threshold)%N
  \/ limit = 0%N \/ (N.of_nat digits <= limit)%N.

(** [cs] is surrounding white space, an optional sign and a literal body of
    [digits] digits that denote [n]. *)
Definition int_literal (cs : list ascii) (n : Z) (digits : nat) : Prop :=
  exists (before after : list ascii) (negative : bool) (sign body : list ascii)
         (ds : list Z),
    cs = before ++ sign ++ body ++ after /\
    forallb literal_space before = true /\
    forallb literal_space after = true /\
    (sign = [] /\ negative = false \/ sign = ["+"%char] /\ negative = false \/
     sign = ["-"%char] /\ negative = true) /\
    literal_body body ds /\
    length ds = digits /\
    n = (if negative then - positional ds else positional ds).

End Startup.

(** stdpp's monad notations ([x ← m; k] and [m;; k]) at [Py.M]. *)
#[global] Instance py_ret : MRet Py.M := @Py.ret.
#[global] Instance py_bind : MBind Py.M := fun A B k m => Py.bind m k.

(** ** The handlers *)

Module Handlers.
Import Py.

(** A JSON object returned by a handler, in insertion order. *)
Definition json_object : Type := list (string * string).

(** Lines 59-98. *)
Definition generate_presigned_url (file_name : string) : M json_object :=
  bucket ← read_global S3_BUCKET;
  if negb (truthy bucket) then
    logger_error "S3_BUCKET_NAME no está configurado en las variables de entorno.";;
    raise (HTTPException 500 "Error interno del servidor: Bucket S3 no configurado.")
  else
    let object_name := file_name in
    try_except
      (expiration ← read_global PRESIGNED_URL_EXPIRATION;
       response ← s3_generate_presigned_url
                     (PresignCall "put_object" (default "" bucket) object_name
                                  expiration "PUT");
       logger_info ("URL firmada generada para " +:+ object_name +:+
                    " en bucket " +:+ default "" bucket);;
       mret [("presigned_url", response); ("object_key", object_name)])
      (fun e =>
         if is_ClientError e then
           logger_error ("Error generando URL firmada para " +:+ object_name
                         +:+ ": " +:+ str_exn e);;
           raise (HTTPException 500
                    ("No se pudo generar la URL firmada: " +:+ str_exn e))
         else
           logger_error ("Error inesperado: " +:+ str_exn e);;
           raise (HTTPException 500 "Error interno inesperado.")).

(** Lines 101-103. *)
Definition health_check : M json_object :=
  mret [("status", "ok")].

End Handlers.

(** ** The routes

    What [@app.get(...)] puts around a handler: the declared parameters are
    taken from the query string before the handler runs, and the handler's
    outcome is turned into a response. *)

Module FastAPI.
Import Py Handlers.

Inductive content : Type :=
  | JSON (o : json_object)
  | Detail (detail : string)
  | MissingParameter (loc : list string)
  | PlainText (text : string).

Record response : Type := Response {
  status_code : Z;
  body : content
}.

(** A returned dict is a 200 with that JSON body; an [HTTPException] is a
    response with its status code and [{"detail": ...}]; anything else that
    escapes a handler is the server's plain 500. *)
Definition respond (r : exn + json_object) : response :=
  match r with
  | inr o => Response 200 (JSON o)
  | inl (HTTPException sc d) => Response sc (Detail d)
  | inl _ => Response 500 (PlainText "Internal Server Error")
  end.

(** GET /generate-presigned-url.  [file_name] is declared [Query(...)]:
    required, no default.  A request without it never reaches the handler;
    the framework answers 422 with the location of the missing parameter. *)
Definition get_generate_presigned_url (file_name : option string)
    (w : world) : response * world :=
  match file_name with
  | None => (Response 422 (MissingParameter ["query"; "file_name"]), w)
  | Some f => let '(r, w') := generate_presigned_url f w in (respond r, w')
  end.

(** GET /health. *)
Definition get_health (w : world) : response * world :=
  let '(r, w') := health_check w in (respond r, w').

(** The two routes of [app], and a sequence of requests served one after
    the other by the same process. *)
Inductive request : Type :=
  | GenerateUrl (file_name : option string)
  | Health.

Definition serve (q : request) (w : world) : response * world :=
  match q with
  | GenerateUrl file_name => get_generate_presigned_url file_name w
  | Health => get_health w
  end.

Fixpoint serve_all (qs : list request) (w : world) : list response * world :=
  match qs with
  | [] => ([], w)
  | q :: rest =>
      let '(r, w') := serve q w in
      let '(rs, w'') := serve_all rest w' in
      (r :: rs, w'')
  end.

End FastAPI.

(** ** Vocabulary of the statements *)

Module Spec.
Import Py Startup Handlers FastAPI.

(** The one call the handler makes for [file_name] when the bucket is [b]. *)
Definition put_object_call (g : globals) (b file_name : string) : presign_call :=
  PresignCall "put_object" b file_name (PRESIGNED_URL_EXPIRATION g) "PUT".

(** What the S3 client answers to that call in world [w]. *)
Definition client_answer (w : world) (b file_name : string) : exn + string :=
  validated (s3_client w) (s3_calls w)
    (put_object_call (module_globals w) b file_name).

(** [needle in hay]. *)
Definition contains (needle hay : string) : Prop :=
  exists before after : string, hay = before +:+ needle +:+ after.

(** The bucket is configured: the name is bound to a non-empty string. *)
Definition configured (w : world) (b : string) : Prop :=
  S3_BUCKET (module_globals w) = Some b /\ b <> "".

(** Every request with an empty [file_name] is turned away. *)
Definition empty_key_rejected : Prop :=
  forall w : world,
    status_code (fst (get_generate_presigned_url (Some "") w)) <> 200.

(** Every answer of the endpoint that is not a 200 is a 500. *)
Definition only_status_500 : Prop :=
  forall (file_name : option string) (w : world),
    let r := fst (get_generate_presigned_url file_name w) in
    status_code r <> 200 -> status_code r = 500.

End Spec.

(** ** Sample processes *)

Module Samples.
Import Py Startup.

(** A client that signs whatever it is asked to. *)
Definition signing_client : s3_oracle :=
  fun _ c =>
    inr ("https://" +:+ Bucket c +:+ ".s3.amazonaws.com/" +:+ Key c +:+
         "?X-Amz-Expires=" +:+ pretty (ExpiresIn c)).

(** A client whose calls the service refuses. *)
Definition denied_client : s3_oracle :=
  fun _ _ => inl (ClientError "An error occurred (AccessDenied)").

(** A client without credentials ([NoCredentialsError] is not a
    [ClientError]). *)
Definition no_credentials_client : s3_oracle :=
  fun _ _ => inl (OtherException "NoCredentialsError" "Unable to locate credentials").

Definition uploads : globals := Globals (Some "uploads") (Some "us-east-1") 3600.

Definition no_bucket : globals := Globals None (Some "us-east-1") 3600.

Definition empty_bucket : globals := Globals (Some "") None 3600.

(** A Unicode database without digits or spaces beyond ASCII: the text is
    cut at its first byte that is not ASCII. *)
Fixpoint cut_at_non_ascii (cs : list ascii) : list ascii :=
  match cs with
  | [] => []
  | c :: rest =>
      if (N_of_ascii c <? 128)%N then c :: cut_at_non_ascii rest
      else ["?"%char]
  end.

(** An interpreter with the default digit limit and that database; the
    samples below are ASCII texts, which it never consults. *)
Definition plain_interpreter : interpreter :=
  Interpreter 4300 (fun s => cut_at_non_ascii (list_ascii_of_string s)).

(** A [boto3.client] that finds what it needs and signs. *)
Definition boto3_ok : boto3_factory := fun _ _ => inr signing_client.

(** A [boto3.client] that is told of a profile it cannot find. *)
Definition boto3_profile_not_found : boto3_factory :=
  fun environ _ =>
    match environ !! "AWS_PROFILE" with
    | Some p =>
        inl (OtherException "ProfileNotFound"
               ("The config profile (" +:+ p +:+ ") could not be found"))
    | None => inr signing_client
    end.

(** A literal of 4301 digits. *)
Definition long_literal : string := string_of_list_ascii (repeat "1"%char 4301).

(** The same configuration in a process that has already served requests:
    another region, another client, calls and log records behind it. *)
Definition busy_world : world :=
  World (Globals (Some "uploads") None 3600)
        (fun earlier c =>
           match earlier with
           | [] => inl (ClientError "An error occurred (SlowDown)")
           | _ => signing_client earlier c
           end)
        [PresignCall "put_object" "uploads" "a.txt" 3600 "PUT"]
        [LogInfo "URL firmada generada para a.txt en bucket uploads"].

End Samples.

(** ** Histories of requests *)

Module History.
Import Py FastAPI.

(** The file names of the requests that reach the handler, in order. *)
Fixpoint handled (qs : list request) : list string :=
  match qs with
  | [] => []
  | GenerateUrl (Some file_name) :: rest => file_name :: handled rest
  | _ :: rest => handled rest
  end.

(** What a process without a bucket answers to a request. *)
Definition unconfigured_answer (q : request) : response :=
  match q with
  | GenerateUrl (Some _) =>
      Response 500 (Detail "Error interno del servidor: Bucket S3 no configurado.")
  | GenerateUrl None => Response 422 (MissingParameter ["query"; "file_name"])
  | Health => Response 200 (JSON [("status", "ok")])
  end.

End History.

(** * Properties *)

Import Py Startup Handlers FastAPI Spec History.

(** ** The model on sample inputs *)

Example int_of_str_plain : int_of_str Samples.plain_interpreter "3600" = Some 3600.
Proof. reflexivity. Qed.

Example int_of_str_padded : int_of_str Samples.plain_interpreter " +4_2 " = Some 42.
Proof. reflexivity. Qed.

Example int_of_str_negative_zeros : int_of_str Samples.plain_interpreter "-007" = Some (-7).
Proof. reflexivity. Qed.

Example int_of_str_rejects :
  map (int_of_str Samples.plain_interpreter)
      [""; "3.5"; "4__2"; "_1"; "1_"; "+ 1"; "0x10"; "1h"] =
  [None; None; None; None; None; None; None; None].
Proof. reflexivity. Qed.

(** The separators 28 to 31 are no white space for an ASCII text. *)
Example int_of_str_separators :
  map (fun c => int_of_str Samples.plain_interpreter (String c "42"))
      ["028"; "029"; "030"; "031"]%char = [None; None; None; None]
  /\ int_of_str Samples.plain_interpreter ("42" +:+ String "031" "") = None
  /\ int_of_str Samples.plain_interpreter (String "009" "42" +:+ String "010" "") = Some 42.
Proof. repeat split; reflexivity. Qed.

(** A short literal passes whatever the limit; a long one is checked. *)
Example int_of_ascii_digit_limit :
  int_of_ascii 2 (list_ascii_of_string "900") = Some 900
  /\ int_of_str Samples.plain_interpreter Samples.long_literal = None.
Proof. split; by vm_compute. Qed.

Example module_init_defaults :
  module_init Samples.plain_interpreter Samples.boto3_ok
    {[ "S3_BUCKET_NAME" := "uploads" ]} =
    Started (initial_world (Globals (Some "uploads") None 3600)
                           Samples.signing_client).
Proof. by vm_compute. Qed.

Example module_init_client_fails :
  module_init Samples.plain_interpreter Samples.boto3_profile_not_found
    {[ "AWS_PROFILE" := "nope" ]} =
    ClientFailed (OtherException "ProfileNotFound"
                    "The config profile (nope) could not be found").
Proof. by vm_compute. Qed.

Example generate_then_health :
  fst (serve_all [GenerateUrl (Some "a.txt"); GenerateUrl None; Health;
                  GenerateUrl (Some "")]
         (initial_world Samples.uploads Samples.signing_client)) =
    [ Response 200
        (JSON [("presigned_url",
                "https://uploads.s3.amazonaws.com/a.txt?X-Amz-Expires=3600");
               ("object_key", "a.txt")]);
      Response 422 (MissingParameter ["query"; "file_name"]);
      Response 200 (JSON [("status", "ok")]);
      Response 500 (Detail "Error interno inesperado.") ].
Proof. reflexivity. Qed.

(** ** Strings *)

Lemma append_empty_r (s : string) : s +:+ "" = s.
Proof.
  induction s as [|c s IH]; [reflexivity |].
  change (String c (s +:+ "") = String c s). by rewrite IH.
Qed.

(** ** How the handler runs *)

Section Run.
Variable w : world.
Variable file_name : string.

Let g := module_globals w.

Lemma truthy_configured (b : string) :
  configured w b -> truthy (S3_BUCKET g) = true.
Proof.
  intros [Hb Hne]. subst g. rewrite Hb. simpl.
  destruct (String.eqb_spec b ""); [contradiction | reflexivity].
Qed.

Lemma truthy_inv :
  truthy (S3_BUCKET g) = true -> exists b, configured w b.
Proof.
  unfold configured. subst g. destruct (S3_BUCKET (module_globals w)) as [b|]; simpl.
  - destruct (String.eqb_spec b ""); [discriminate |]. intros _. by exists b.
  - discriminate.
Qed.

(** Without a bucket the handler logs, raises and leaves the client alone. *)
Lemma run_unconfigured :
  truthy (S3_BUCKET g) = false ->
  generate_presigned_url file_name w =
    (inl (HTTPException 500 "Error interno del servidor: Bucket S3 no configurado."),
     World g (s3_client w) (s3_calls w)
       (log w ++ [LogError "S3_BUCKET_NAME no está configurado en las variables de entorno."])).
Proof.
  intros H. unfold generate_presigned_url, mbind, py_bind, bind, read_global.
  fold g. rewrite H. reflexivity.
Qed.

(** With a bucket the handler makes one call and its outcome is decided by
    the client's answer. *)
Lemma run_configured (b : string) :
  configured w b ->
  generate_presigned_url file_name w =
    let c := put_object_call g b file_name in
    let w1 := World g (s3_client w) (s3_calls w ++ [c]) in
    match client_answer w b file_name with
    | inr url =>
        (inr [("presigned_url", url); ("object_key", file_name)],
         w1 (log w ++ [LogInfo ("URL firmada generada para " +:+ file_name
                                +:+ " en bucket " +:+ b)]))
    | inl e =>
        if is_ClientError e then
          (inl (HTTPException 500
                  ("No se pudo generar la URL firmada: " +:+ str_exn e)),
           w1 (log w ++ [LogError ("Error generando URL firmada para "
                                   +:+ file_name +:+ ": " +:+ str_exn e)]))
        else
          (inl (HTTPException 500 "Error interno inesperado."),
           w1 (log w ++ [LogError ("Error inesperado: " +:+ str_exn e)]))
    end.
Proof.
  intros Hc. pose proof (truthy_configured b Hc) as Ht. destruct Hc as [Hb Hne].
  unfold generate_presigned_url, mbind, py_bind, bind, read_global.
  fold g. rewrite Ht. cbn [negb].
  unfold try_except, s3_generate_presigned_url, client_answer, put_object_call.
  fold g. subst g. rewrite Hb. cbn [default from_option].
  destruct (validated (s3_client w) (s3_calls w) _) as [e|url]; cbn.
  - destruct (is_ClientError e); reflexivity.
  - reflexivity.
Qed.

End Run.

(** ** The generate-presigned-url endpoint *)

(** C1. When S3_BUCKET is absent ([None]) or empty, a request that reaches
    the handler is answered 500 with the detail that the S3 bucket is not
    configured, and the signing client is not called. *)
Theorem C1_missing_bucket_is_500 (w : world) (file_name : string) :
  S3_BUCKET (module_globals w) = None \/ S3_BUCKET (module_globals w) = Some "" ->
  let '(r, w') := get_generate_presigned_url (Some file_name) w in
  r = Response 500 (Detail "Error interno del servidor: Bucket S3 no configurado.")
  /\ s3_calls w' = s3_calls w
  /\ fst (generate_presigned_url file_name w) =
       inl (HTTPException 500 "Error interno del servidor: Bucket S3 no configurado.").
Proof.
  intros H.
  assert (Ht : truthy (S3_BUCKET (module_globals w)) = false)
    by (destruct H as [-> | ->]; reflexivity).
  unfold get_generate_presigned_url.
  rewrite (run_unconfigured w file_name Ht). cbn. auto.
Qed.

Lemma C1_witness :
  (let '(r, w') := get_generate_presigned_url (Some "photo.jpg")
                     (initial_world Samples.no_bucket Samples.signing_client) in
   r = Response 500 (Detail "Error interno del servidor: Bucket S3 no configurado.")
   /\ s3_calls w' = []
   /\ fst (generate_presigned_url "photo.jpg"
             (initial_world Samples.no_bucket Samples.signing_client)) =
        inl (HTTPException 500 "Error interno del servidor: Bucket S3 no configurado."))
  /\
  (let '(r, w') := get_generate_presigned_url (Some "photo.jpg")
                     (initial_world Samples.empty_bucket Samples.signing_client) in
   r = Response 500 (Detail "Error interno del servidor: Bucket S3 no configurado.")
   /\ s3_calls w' = []
   /\ fst (generate_presigned_url "photo.jpg"
             (initial_world Samples.empty_bucket Samples.signing_client)) =
        inl (HTTPException 500 "Error interno del servidor: Bucket S3 no configurado.")).
Proof.
  split.
  - apply (C1_missing_bucket_is_500
             (initial_world Samples.no_bucket Samples.signing_client) "photo.jpg").
    left. reflexivity.
  - apply (C1_missing_bucket_is_500
             (initial_world Samples.empty_bucket Samples.signing_client) "photo.jpg").
    right. reflexivity.
Defined.

(** C2. With the bucket configured and a signing client that returns a URL,
    the answer is 200 and its body has exactly the two fields presigned_url
    (the client's URL) and object_key (the request's file_name). *)
Theorem C2_success_body (w : world) (file_name b url : string) :
  configured w b ->
  client_answer w b file_name = inr url ->
  fst (get_generate_presigned_url (Some file_name) w) =
    Response 200 (JSON [("presigned_url", url); ("object_key", file_name)]).
Proof.
  intros Hc Ha. unfold get_generate_presigned_url.
  rewrite (run_configured w file_name b Hc). cbv zeta. rewrite Ha. reflexivity.
Qed.

Lemma C2_witness :
  fst (get_generate_presigned_url (Some "photo.jpg")
         (initial_world Samples.uploads Samples.signing_client)) =
    Response 200
      (JSON [("presigned_url",
              "https://uploads.s3.amazonaws.com/photo.jpg?X-Amz-Expires=3600");
             ("object_key", "photo.jpg")]).
Proof.
  apply (C2_success_body (initial_world Samples.uploads Samples.signing_client)
           "photo.jpg" "uploads").
  - split; [reflexivity | discriminate].
  - reflexivity.
Defined.

(** The handler's one call, shared by the statements about it. *)
Lemma handler_calls_once (w : world) (file_name b : string) :
  configured w b ->
  s3_calls (snd (get_generate_presigned_url (Some file_name) w)) =
    s3_calls w ++ [put_object_call (module_globals w) b file_name].
Proof.
  intros Hc. unfold get_generate_presigned_url.
  rewrite (run_configured w file_name b Hc). cbv zeta.
  destruct (client_answer w b file_name) as [e|url];
    [destruct (is_ClientError e) |]; reflexivity.
Qed.

(** C3. With the bucket configured, the handler calls the client's
    presigned-URL generation exactly once, whatever the client answers:
    'put_object' with HttpMethod 'PUT', Key the request's file_name, Bucket
    the configured bucket, ExpiresIn the configured expiration. *)
Theorem C3_one_put_object_call (w : world) (file_name b : string) :
  configured w b ->
  s3_calls (snd (get_generate_presigned_url (Some file_name) w)) =
    s3_calls w ++
    [ {| ClientMethod := "put_object";
         Bucket := b;
         Key := file_name;
         ExpiresIn := PRESIGNED_URL_EXPIRATION (module_globals w);
         HttpMethod := "PUT" |} ].
Proof. apply handler_calls_once. Qed.

Lemma C3_witness :
  s3_calls (snd (get_generate_presigned_url (Some "photo.jpg")
                   (initial_world Samples.uploads Samples.denied_client))) =
    [ PresignCall "put_object" "uploads" "photo.jpg" 3600 "PUT" ].
Proof.
  apply (C3_one_put_object_call
           (initial_world Samples.uploads Samples.denied_client)
           "photo.jpg" "uploads").
  split; [reflexivity | discriminate].
Defined.

(** C5. When the signing client raises a ClientError, the answer is 500 and
    its detail is a fixed prefix followed by the text of that error, so the
    detail contains the error's text. *)
Theorem C5_client_error_is_500 (w : world) (file_name b msg : string) :
  configured w b ->
  client_answer w b file_name = inl (ClientError msg) ->
  exists detail : string,
    fst (get_generate_presigned_url (Some file_name) w) =
      Response 500 (Detail detail)
    /\ detail = "No se pudo generar la URL firmada: " +:+ msg
    /\ contains (str_exn (ClientError msg)) detail.
Proof.
  intros Hc Ha. eexists. split; [| split; [reflexivity |]].
  - unfold get_generate_presigned_url.
    rewrite (run_configured w file_name b Hc). cbv zeta. rewrite Ha. reflexivity.
  - exists "No se pudo generar la URL firmada: ", "". cbn [str_exn].
    by rewrite append_empty_r.
Qed.

Lemma C5_witness :
  exists detail : string,
    fst (get_generate_presigned_url (Some "photo.jpg")
           (initial_world Samples.uploads Samples.denied_client)) =
      Response 500 (Detail detail)
    /\ detail = "No se pudo generar la URL firmada: An error occurred (AccessDenied)"
    /\ contains "An error occurred (AccessDenied)" detail.
Proof.
  apply (C5_client_error_is_500
           (initial_world Samples.uploads Samples.denied_client)
           "photo.jpg" "uploads" "An error occurred (AccessDenied)").
  - split; [reflexivity | discriminate].
  - reflexivity.
Defined.

(** C6. When the signing call raises anything that is not a ClientError, the
    answer is 500 with one fixed detail: the same for every such error, so
    nothing of the error's text goes into it. *)
Theorem C6_unexpected_error_is_generic_500 (w : world) (file_name b : string)
    (e : exn) :
  configured w b ->
  client_answer w b file_name = inl e ->
  is_ClientError e = false ->
  fst (get_generate_presigned_url (Some file_name) w) =
    Response 500 (Detail "Error interno inesperado.").
Proof.
  intros Hc Ha He. unfold get_generate_presigned_url.
  rewrite (run_configured w file_name b Hc). cbv zeta. rewrite Ha, He.
  reflexivity.
Qed.

Lemma C6_witness :
  fst (get_generate_presigned_url (Some "photo.jpg")
         (initial_world Samples.uploads Samples.no_credentials_client)) =
    Response 500 (Detail "Error interno inesperado.").
Proof.
  apply (C6_unexpected_error_is_generic_500
           (initial_world Samples.uploads Samples.no_credentials_client)
           "photo.jpg" "uploads"
           (OtherException "NoCredentialsError" "Unable to locate credentials")).
  - split; [reflexivity | discriminate].
  - reflexivity.
  - reflexivity.
Defined.

(** ** The health endpoint *)

(** C4. GET /health answers 200 with the body {"status": "ok"} in every
    world (whatever the configuration, the client and the history), and
    leaves the world as it was. *)
Theorem C4_health_always_ok (w : world) :
  health_check w = (inr [("status", "ok")], w)
  /\ get_health w = (Response 200 (JSON [("status", "ok")]), w).
Proof. split; reflexivity. Qed.

(** ** Requests the handler does not see, and keys it does not check *)

(** The endpoint answers 200 or 500 whenever the handler runs. *)
Lemma handler_status_200_or_500 (w : world) (file_name : string) :
  let r := fst (get_generate_presigned_url (Some file_name) w) in
  status_code r = 200 \/ status_code r = 500.
Proof.
  cbv zeta. unfold get_generate_presigned_url.
  destruct (truthy (S3_BUCKET (module_globals w))) eqn:Ht.
  - destruct (truthy_inv w Ht) as [b Hc].
    rewrite (run_configured w file_name b Hc). cbv zeta.
    destruct (client_answer w b file_name) as [e|url];
      [destruct (is_ClientError e) |]; cbn; auto.
  - rewrite (run_unconfigured w file_name Ht). cbn. auto.
Qed.

(** When is the answer a 200?  Exactly when the bucket is configured and
    the client returns a URL. *)
Lemma handler_status_200_iff (w : world) (file_name : string) :
  status_code (fst (get_generate_presigned_url (Some file_name) w)) = 200 <->
  exists b url : string,
    configured w b /\ client_answer w b file_name = inr url.
Proof.
  unfold get_generate_presigned_url. split.
  - destruct (truthy (S3_BUCKET (module_globals w))) eqn:Ht.
    + destruct (truthy_inv w Ht) as [b Hc].
      rewrite (run_configured w file_name b Hc). cbv zeta.
      destruct (client_answer w b file_name) as [e|url] eqn:Ha.
      * destruct (is_ClientError e); cbn; discriminate.
      * intros _. by exists b, url.
    + rewrite (run_unconfigured w file_name Ht). cbn. discriminate.
  - intros (b & url & Hc & Ha).
    rewrite (run_configured w file_name b Hc). cbv zeta. rewrite Ha. reflexivity.
Qed.

(** With an empty Key the client never returns a URL. *)
Lemma empty_key_never_signed (w : world) (b : string) :
  exists e : exn,
    client_answer w b "" = inl e
    /\ ((forall msg : string,
           s3_client w (s3_calls w) (put_object_call (module_globals w) b "")
           <> inl (ClientError msg)) ->
        is_ClientError e = false).
Proof.
  unfold client_answer, validated. cbn [put_object_call Key String.eqb].
  destruct (s3_client w (s3_calls w) _) as [e|url].
  - exists e. split; [done |]. intros H.
    destruct e as [sc d|msg|cls msg]; try done. by destruct (H msg).
  - by exists invalid_key_length.
Qed.

(** C7. A request whose file_name is the empty string is never answered
    with a 200 and a presigned URL.  The handler itself has no check on
    file_name; it passes the empty Key to the client, whose parameter
    validation refuses it, and the handler turns that into a 500: the
    generic one, unless the client raised a ClientError of its own.  (With
    no bucket configured the answer is the 500 of the configuration
    check.) *)
Theorem C7_empty_key_is_rejected :
  empty_key_rejected
  /\ (forall w : world,
        exists detail : string,
          fst (get_generate_presigned_url (Some "") w) =
            Response 500 (Detail detail)
          /\ fst (generate_presigned_url "" w) =
               inl (HTTPException 500 detail))
  /\ (forall (w : world) (b : string),
        configured w b ->
        (forall msg : string,
           s3_client w (s3_calls w) (put_object_call (module_globals w) b "")
           <> inl (ClientError msg)) ->
        fst (get_generate_presigned_url (Some "") w) =
          Response 500 (Detail "Error interno inesperado.")).
Proof.
  assert (H500 : forall w : world,
            exists detail : string,
              fst (get_generate_presigned_url (Some "") w) =
                Response 500 (Detail detail)
              /\ fst (generate_presigned_url "" w) =
                   inl (HTTPException 500 detail)).
  { intros w. unfold get_generate_presigned_url.
    destruct (truthy (S3_BUCKET (module_globals w))) eqn:Ht.
    - destruct (truthy_inv w Ht) as [b Hc].
      rewrite (run_configured w "" b Hc). cbv zeta.
      destruct (empty_key_never_signed w b) as (e & -> & _).
      destruct (is_ClientError e); cbn; by eexists.
    - rewrite (run_unconfigured w "" Ht). cbn. by eexists. }
  split; [| split; [exact H500 |]].
  - intros w. destruct (H500 w) as (detail & -> & _). cbn. discriminate.
  - intros w b Hc Hno. unfold get_generate_presigned_url.
    rewrite (run_configured w "" b Hc). cbv zeta.
    destruct (empty_key_never_signed w b) as (e & -> & He).
    by rewrite (He Hno).
Qed.

Lemma C7_witness :
  fst (get_generate_presigned_url (Some "")
         (initial_world Samples.uploads Samples.signing_client)) =
    Response 500 (Detail "Error interno inesperado.").
Proof.
  apply (proj2 (proj2 C7_empty_key_is_rejected)
           (initial_world Samples.uploads Samples.signing_client) "uploads").
  - split; [reflexivity | discriminate].
  - intros msg. discriminate.
Defined.

(** C8, as stated, fails: a request without file_name is not a 200 and is
    not a 500 either. *)
Lemma C8_counterexample : ~ only_status_500.
Proof.
  intros H.
  specialize (H None (initial_world Samples.uploads Samples.signing_client)).
  cbn in H. assert (E : 422 = 500) by (apply H; discriminate).
  discriminate E.
Qed.

(** C8, amended.  Whenever the handler runs (file_name is present) the
    answer is 200 or 500 and nothing else.  A request without file_name is
    refused by the framework before the handler runs: 422, with the world
    untouched. *)
Theorem C8_status_codes (w : world) :
  (forall file_name : string,
     let r := fst (get_generate_presigned_url (Some file_name) w) in
     status_code r = 200 \/ status_code r = 500)
  /\ get_generate_presigned_url None w =
       (Response 422 (MissingParameter ["query"; "file_name"]), w).
Proof.
  split; [intros file_name; apply handler_status_200_or_500 | reflexivity].
Qed.

(** ** Statelessness *)

(** No handler rebinds a module-level name. *)
Lemma serve_keeps_module (q : request) (w : world) :
  module_globals (snd (serve q w)) = module_globals w
  /\ s3_client (snd (serve q w)) = s3_client w.
Proof.
  destruct q as [[file_name|]|]; cbn; auto.
  destruct (truthy (S3_BUCKET (module_globals w))) eqn:Ht.
  - destruct (truthy_inv w Ht) as [b Hc].
    rewrite (run_configured w file_name b Hc). cbv zeta.
    destruct (client_answer w b file_name) as [e|url];
      [destruct (is_ClientError e) |]; cbn; auto.
  - rewrite (run_unconfigured w file_name Ht). cbn. auto.
Qed.

Lemma serve_all_keeps_module (qs : list request) (w : world) :
  module_globals (snd (serve_all qs w)) = module_globals w
  /\ s3_client (snd (serve_all qs w)) = s3_client w.
Proof.
  revert w. induction qs as [|q qs IH]; intros w; [by cbn |].
  cbn [serve_all].
  destruct (serve q w) as [r w1] eqn:Hq.
  destruct (serve_all qs w1) as [rs w2] eqn:Hqs. cbn [snd].
  destruct (IH w1) as [IHg IHc]. rewrite Hqs in IHg, IHc. cbn [snd] in IHg, IHc.
  destruct (serve_keeps_module q w) as [Hg Hc]. rewrite Hq in Hg, Hc.
  cbn [snd] in Hg, Hc. split; congruence.
Qed.

(** The handler's outcome is a function of the file name, the two
    configuration values and the client's answer. *)
Lemma handler_outcome_determined (w1 w2 : world) (file_name : string) :
  S3_BUCKET (module_globals w1) = S3_BUCKET (module_globals w2) ->
  (forall b : string, configured w1 b ->
     client_answer w1 b file_name = client_answer w2 b file_name) ->
  fst (generate_presigned_url file_name w1) =
  fst (generate_presigned_url file_name w2).
Proof.
  intros Hb Ha.
  destruct (truthy (S3_BUCKET (module_globals w1))) eqn:Ht.
  - destruct (truthy_inv w1 Ht) as [b Hc1].
    assert (Hc2 : configured w2 b)
      by (destruct Hc1 as [H1 H2]; split; [congruence | done]).
    rewrite (run_configured w1 file_name b Hc1),
            (run_configured w2 file_name b Hc2). cbv zeta.
    rewrite <- (Ha b Hc1).
    destruct (client_answer w1 b file_name) as [e|url];
      [destruct (is_ClientError e) |]; reflexivity.
  - rewrite (run_unconfigured w1 file_name Ht).
    rewrite Hb in Ht. rewrite (run_unconfigured w2 file_name Ht). reflexivity.
Qed.

(** C9. Two invocations of generate_presigned_url with the same file_name,
    the same S3_BUCKET and PRESIGNED_URL_EXPIRATION and the same result of
    the signing client give the same outcome and the same response, whatever
    else differs between the two worlds (log, earlier calls, region); no
    request rebinds a module-level name; so after any sequence of earlier
    requests a request is answered as it would have been without them. *)
Theorem C9_stateless_and_deterministic :
  (forall (w1 w2 : world) (file_name : string),
     S3_BUCKET (module_globals w1) = S3_BUCKET (module_globals w2) ->
     PRESIGNED_URL_EXPIRATION (module_globals w1) =
       PRESIGNED_URL_EXPIRATION (module_globals w2) ->
     (forall b : string, configured w1 b ->
        client_answer w1 b file_name = client_answer w2 b file_name) ->
     fst (generate_presigned_url file_name w1) =
       fst (generate_presigned_url file_name w2)
     /\ fst (serve (GenerateUrl (Some file_name)) w1) =
          fst (serve (GenerateUrl (Some file_name)) w2))
  /\ (forall (q : request) (w : world),
        module_globals (snd (serve q w)) = module_globals w
        /\ s3_client (snd (serve q w)) = s3_client w)
  /\ (forall (earlier : list request) (q : request) (w : world),
        (forall file_name b : string,
           q = GenerateUrl (Some file_name) -> configured w b ->
           client_answer (snd (serve_all earlier w)) b file_name =
             client_answer w b file_name) ->
        fst (serve q (snd (serve_all earlier w))) = fst (serve q w)).
Proof.
  split; [| split].
  - intros w1 w2 file_name Hb _ Ha.
    pose proof (handler_outcome_determined w1 w2 file_name Hb Ha) as H.
    split; [exact H |]. cbn [serve]. unfold get_generate_presigned_url.
    destruct (generate_presigned_url file_name w1) as [r1 w1'].
    destruct (generate_presigned_url file_name w2) as [r2 w2'].
    cbn [fst] in *. by rewrite H.
  - apply serve_keeps_module.
  - intros earlier q w Ha.
    destruct (serve_all_keeps_module earlier w) as [Hg Hc].
    destruct q as [[file_name|]|]; [| reflexivity | reflexivity].
    cbn [serve]. unfold get_generate_presigned_url.
    assert (H : fst (generate_presigned_url file_name (snd (serve_all earlier w))) =
                fst (generate_presigned_url file_name w)).
    { apply handler_outcome_determined.
      - by rewrite Hg.
      - intros b [Hb Hne]. symmetry. rewrite Hg in Hb.
        symmetry. by apply Ha. }
    destruct (generate_presigned_url file_name (snd (serve_all earlier w))) as [r1 w1'].
    destruct (generate_presigned_url file_name w) as [r2 w2'].
    cbn [fst] in *. by rewrite H.
Qed.

Lemma C9_witness :
  fst (generate_presigned_url "photo.jpg"
         (initial_world Samples.uploads Samples.signing_client)) =
    fst (generate_presigned_url "photo.jpg" Samples.busy_world)
  /\ fst (serve (GenerateUrl (Some "photo.jpg"))
            (initial_world Samples.uploads Samples.signing_client)) =
       fst (serve (GenerateUrl (Some "photo.jpg")) Samples.busy_world).
Proof.
  apply (proj1 C9_stateless_and_deterministic
           (initial_world Samples.uploads Samples.signing_client)
           Samples.busy_world "photo.jpg").
  - reflexivity.
  - reflexivity.
  - intros b [Hb _]. injection Hb as <-. reflexivity.
Defined.

(** ** Start-up: the expiration *)

(** *** White space *)

Lemma lstrip_spec (cs : list ascii) :
  exists before : list ascii,
    cs = before ++ lstrip cs /\ forallb is_space before = true.
Proof.
  induction cs as [|c cs (before & E & Hb)].
  - by exists [].
  - cbn [lstrip]. destruct (is_space c) eqn:Hc.
    + exists (c :: before). cbn. rewrite Hc, Hb. split; [by f_equal | done].
    + by exists [].
Qed.

Lemma lstrip_head (c : ascii) (cs : list ascii) :
  is_space c = false -> lstrip (c :: cs) = c :: cs.
Proof. intros H. cbn. by rewrite H. Qed.

Lemma lstrip_app_spaces (ws cs : list ascii) :
  forallb is_space ws = true -> lstrip (ws ++ cs) = lstrip cs.
Proof.
  induction ws as [|c ws IH]; [done |]. cbn.
  intros [Hc Hws]%andb_prop. rewrite Hc. by apply IH.
Qed.

Lemma forallb_rev {A} (f : A -> bool) (l : list A) :
  forallb f (rev l) = forallb f l.
Proof.
  induction l as [|a l IH]; [done |]. cbn.
  rewrite forallb_app, IH. cbn. rewrite andb_true_r. apply andb_comm.
Qed.

Lemma strip_spec (cs : list ascii) :
  exists before after : list ascii,
    cs = before ++ strip cs ++ after
    /\ forallb is_space before = true /\ forallb is_space after = true.
Proof.
  destruct (lstrip_spec cs) as (before & E1 & Hb).
  destruct (lstrip_spec (rev (lstrip cs))) as (retfa & E2 & Ha).
  exists before, (rev retfa). unfold strip, rstrip. repeat split.
  - rewrite <- rev_app_distr, <- E2, rev_involutive. exact E1.
  - exact Hb.
  - by rewrite forallb_rev.
Qed.

Lemma rstrip_app_spaces (front after : list ascii) (last : ascii) :
  forallb is_space after = true -> is_space last = false ->
  rstrip ((front ++ [last]) ++ after) = front ++ [last].
Proof.
  intros Ha Hl. unfold rstrip. rewrite !rev_app_distr. cbn [rev app].
  rewrite lstrip_app_spaces by (by rewrite forallb_rev).
  rewrite lstrip_head by done.
  cbn [rev]. by rewrite rev_involutive.
Qed.

(** A core that neither starts nor ends with white space is what [strip]
    leaves. *)
Lemma strip_core (before after front middle : list ascii) (first last : ascii) :
  forallb is_space before = true -> forallb is_space after = true ->
  first :: middle = front ++ [last] ->
  is_space first = false -> is_space last = false ->
  strip (before ++ (first :: middle) ++ after) = first :: middle.
Proof.
  intros Hb Ha Hcore Hf Hl. unfold strip.
  rewrite lstrip_app_spaces by done.
  cbn [app]. rewrite lstrip_head by done.
  change (first :: middle ++ after) with ((first :: middle) ++ after).
  rewrite Hcore. by apply rstrip_app_spaces.
Qed.

(** *** The parser's character classes are the literal's *)

Lemma digit_value_table (c : ascii) : digit_value c = literal_digit c.
Proof. by destruct c as [[] [] [] [] [] [] [] []]. Qed.

Lemma is_space_table (c : ascii) : is_space c = literal_space c.
Proof. by destruct c as [[] [] [] [] [] [] [] []]. Qed.

Lemma forallb_space_table (cs : list ascii) :
  forallb is_space cs = forallb literal_space cs.
Proof.
  induction cs as [|c cs IH]; [done |]. cbn. by rewrite is_space_table, IH.
Qed.

(** *** Digits *)

Lemma digit_value_facts (c : ascii) (d : Z) :
  digit_value c = Some d ->
  is_space c = false /\ c <> "+"%char /\ c <> "-"%char
  /\ Ascii.eqb c "_" = false /\ 0 <= d <= 9.
Proof.
  destruct c as [[] [] [] [] [] [] [] []]; cbv; intros H;
    try discriminate H; injection H as <-;
    repeat split; congruence.
Qed.

Lemma literal_body_ends (cs : list ascii) (ds : list Z) :
  literal_body cs ds ->
  exists (first last : ascii) (middle front : list ascii),
    cs = first :: middle /\ cs = front ++ [last]
    /\ is_Some (digit_value first) /\ is_Some (digit_value last).
Proof.
  induction 1 as [c d Hc | c d cs ds Hc _ IH | c d cs ds Hc _ IH];
    rewrite <- digit_value_table in Hc.
  - exists c, c, [], []. by rewrite Hc.
  - destruct IH as (first & last & middle & front & E1 & E2 & H1 & H2).
    exists c, last, cs, (c :: front). rewrite Hc. repeat split; try done.
    by rewrite E2 at 1.
  - destruct IH as (first & last & middle & front & E1 & E2 & H1 & H2).
    exists c, last, ("_"%char :: cs), (c :: "_"%char :: front).
    rewrite Hc. repeat split; try done. by rewrite E2 at 1.
Qed.

Lemma literal_body_repeat (c : ascii) (d : Z) (k : nat) :
  literal_digit c = Some d ->
  literal_body (repeat c (S k)) (repeat d (S k)).
Proof.
  intros Hc. induction k as [|k IH]; [by apply body_last |].
  change (literal_body (c :: repeat c (S k)) (d :: repeat d (S k))).
  by apply body_digit.
Qed.

Lemma positional_cons (acc d : Z) (ds : list Z) :
  (10 * acc + d) * 10 ^ Z.of_nat (length ds) + positional ds =
  acc * 10 ^ Z.of_nat (length (d :: ds)) + positional (d :: ds).
Proof.
  cbn [length positional]. rewrite Nat2Z.inj_succ, Z.pow_succ_r by lia. ring.
Qed.

(** The loop accepts every literal body and computes its positional value. *)
Lemma int_digits_complete (cs : list ascii) (ds : list Z) :
  literal_body cs ds ->
  forall (acc : Z) (count : N) (after_digit : bool),
    int_digits acc count after_digit cs =
      Some (acc * 10 ^ Z.of_nat (length ds) + positional ds,
            (count + N.of_nat (length ds))%N).
Proof.
  induction 1 as [c d Hc | c d cs ds Hc _ IH | c d cs ds Hc _ IH];
    rewrite <- digit_value_table in Hc; intros acc count after_digit.
  - cbn [int_digits]. rewrite Hc. cbn. f_equal. f_equal; lia.
  - cbn [int_digits]. rewrite Hc, IH, positional_cons. f_equal. f_equal.
    cbn [length]. lia.
  - cbn [int_digits]. rewrite Hc. cbn. rewrite IH, positional_cons.
    f_equal. f_equal. cbn [length]. lia.
Qed.

(** The loop accepts nothing else. *)
Lemma int_digits_sound (cs : list ascii) :
  forall (acc : Z) (count : N) (n : Z) (k : N),
    (int_digits acc count false cs = Some (n, k) ->
     exists ds, literal_body cs ds
       /\ n = acc * 10 ^ Z.of_nat (length ds) + positional ds
       /\ k = (count + N.of_nat (length ds))%N)
    /\ (int_digits acc count true cs = Some (n, k) ->
        (cs = [] /\ n = acc /\ k = count)
        \/ exists ds,
             (literal_body cs ds
              \/ exists cs', cs = "_"%char :: cs' /\ literal_body cs' ds)
             /\ n = acc * 10 ^ Z.of_nat (length ds) + positional ds
             /\ k = (count + N.of_nat (length ds))%N).
Proof.
  induction cs as [|c rest IH]; intros acc count n k.
  - split; cbn; [discriminate |]. intros [= <- <-]. by left.
  - assert (Hdigit : forall d flag,
              digit_value c = Some d ->
              int_digits acc count flag (c :: rest) = Some (n, k) ->
              exists ds, literal_body (c :: rest) ds
                /\ n = acc * 10 ^ Z.of_nat (length ds) + positional ds
                /\ k = (count + N.of_nat (length ds))%N).
    { intros d flag Hc. cbn [int_digits]. rewrite Hc. intros H.
      rewrite digit_value_table in Hc.
      apply (proj2 (IH _ _ _ _)) in H as [(-> & -> & ->) | (ds & Hds & -> & ->)].
      - exists [d]. split; [by constructor |]. cbn. split; lia.
      - exists (d :: ds). rewrite positional_cons. split; [| split; [done |]].
        + destruct Hds as [Hds | (cs' & -> & Hds)]; by constructor.
        + cbn [length]. lia. }
    destruct (digit_value c) as [d|] eqn:Hc.
    + split; intros H; [by eapply Hdigit | right].
      destruct (Hdigit d true eq_refl H) as (ds & ?). exists ds. tauto.
    + split; cbn [int_digits]; rewrite Hc.
      * rewrite andb_false_r. discriminate.
      * rewrite andb_true_r. destruct (Ascii.eqb_spec c "_"); [| discriminate].
        subst c. intros H. right.
        apply (proj1 (IH _ _ _ _)) in H as (ds & Hds & -> & ->).
        exists ds. split; [right; by exists rest | done].
Qed.

(** *** Sign and limit *)

Lemma split_sign_spec (cs : list ascii) :
  exists sign : list ascii,
    cs = sign ++ snd (split_sign cs)
    /\ (sign = [] /\ fst (split_sign cs) = false
        \/ sign = ["+"%char] /\ fst (split_sign cs) = false
        \/ sign = ["-"%char] /\ fst (split_sign cs) = true).
Proof.
  destruct cs as [|c rest]; [exists []; auto |].
  destruct c as [[] [] [] [] [] [] [] []];
    try (exists []; split; [reflexivity | left; split; reflexivity]).
  - exists ["+"%char]. split; [reflexivity | auto].
  - exists ["-"%char]. split; [reflexivity | auto].
Qed.

Lemma split_sign_other (c : ascii) (rest : list ascii) :
  c <> "+"%char -> c <> "-"%char -> split_sign (c :: rest) = (false, c :: rest).
Proof.
  destruct c as [[] [] [] [] [] [] [] []]; intros H1 H2;
    try reflexivity; congruence.
Qed.

Lemma limit_check (limit : N) (digits : nat) :
  ((str_digits_check_threshold <? N.of_nat digits)
   && (0 <? limit) && (limit <? N.of_nat digits))%N = false
  <-> within_limit limit digits.
Proof.
  unfold within_limit.
  rewrite !andb_false_iff, !N.ltb_ge. lia.
Qed.

(** The parser succeeds only on literals, with their value. *)
Lemma int_of_ascii_sound (limit : N) (cs : list ascii) (n : Z) :
  int_of_ascii limit cs = Some n ->
  exists digits : nat, int_literal cs n digits /\ within_limit limit digits.
Proof.
  unfold int_of_ascii.
  destruct (strip_spec cs) as (before & after & E & Hb & Ha).
  destruct (split_sign_spec (strip cs)) as (sign & Ecore & Hsign).
  destruct (split_sign (strip cs)) as [negative body].
  cbn [fst snd] in *.
  destruct (int_digits 0 0 false body) as [[n0 count]|] eqn:Hd; [| discriminate].
  apply (proj1 (int_digits_sound _ _ _ _ _)) in Hd as (ds & Hds & -> & ->).
  rewrite N.add_0_l.
  destruct (_ && _) eqn:Hlim; [discriminate |]. intros [= <-].
  exists (length ds). split; [| by apply limit_check].
  exists before, after, negative, sign, body, ds.
  rewrite <- !forallb_space_table.
  rewrite E at 1. rewrite Ecore at 1. rewrite <- !app_assoc.
  repeat split; done.
Qed.

(** What the parser does with a literal, limit included. *)
Lemma int_of_ascii_literal (limit : N) (cs : list ascii) (n : Z)
    (digits : nat) :
  int_literal cs n digits ->
  int_of_ascii limit cs =
    if ((str_digits_check_threshold <? N.of_nat digits)
        && (0 <? limit) && (limit <? N.of_nat digits))%N
    then None else Some n.
Proof.
  intros (before & after & negative & sign & body & ds
          & -> & Hb & Ha & Hsign & Hds & <- & ->).
  rewrite <- forallb_space_table in Hb, Ha.
  destruct (literal_body_ends _ _ Hds)
    as (first & last & middle & front & E1 & E2 & [d1 H1] & [d2 H2]).
  destruct (digit_value_facts _ _ H1) as (Hs1 & Hplus & Hminus & _).
  destruct (digit_value_facts _ _ H2) as (Hs2 & _).
  assert (Hrun : int_digits 0 0 false body =
                 Some (positional ds, N.of_nat (length ds))).
  { rewrite (int_digits_complete _ _ Hds). f_equal. }
  unfold int_of_ascii.
  destruct Hsign as [[-> ->] | [[-> ->] | [-> ->]]]; cbn [app].
  - rewrite E1 at 1.
    rewrite (strip_core before after front middle first last)
      by (try done; by rewrite <- E1).
    rewrite split_sign_other by done.
    by rewrite <- E1, Hrun.
  - change ("+"%char :: body ++ after) with (("+"%char :: body) ++ after).
    rewrite (strip_core before after ("+"%char :: front) body "+"%char last)
      by (try done; cbn; by rewrite E2 at 1).
    cbn [split_sign]. by rewrite Hrun.
  - change ("-"%char :: body ++ after) with (("-"%char :: body) ++ after).
    rewrite (strip_core before after ("-"%char :: front) body "-"%char last)
      by (try done; cbn; by rewrite E2 at 1).
    cbn [split_sign]. by rewrite Hrun.
Qed.

(** The parser succeeds on every literal the digit limit lets through. *)
Lemma int_of_ascii_complete (limit : N) (cs : list ascii) (n : Z)
    (digits : nat) :
  int_literal cs n digits -> within_limit limit digits ->
  int_of_ascii limit cs = Some n.
Proof.
  intros Hlit Hlim. rewrite (int_of_ascii_literal _ _ _ _ Hlit).
  apply limit_check in Hlim. by rewrite Hlim.
Qed.

(** A text the parser refuses without any limit is no literal. *)
Lemma not_a_literal (cs : list ascii) :
  int_of_ascii 0 cs = None ->
  forall (n : Z) (digits : nat), ~ int_literal cs n digits.
Proof.
  intros Hnone n digits Hlit.
  rewrite (int_of_ascii_complete 0 cs n digits Hlit) in Hnone; [done |].
  right. by left.
Qed.

(** *** The configuration and the module *)

Lemma module_init_after_configuration (py : interpreter)
    (boto3_client : boto3_factory) (environ : gmap string string) :
  (forall v : value,
     load_configuration py environ = inl v ->
     module_init py boto3_client environ = ValueError v)
  /\ (forall w : world,
        module_init py boto3_client environ = Started w ->
        load_configuration py environ = inr (module_globals w))
  /\ (forall (g : globals) (client : s3_oracle),
        load_configuration py environ = inr g ->
        boto3_client environ (AWS_REGION g) = inr client ->
        module_init py boto3_client environ = Started (initial_world g client)).
Proof.
  unfold module_init. repeat split.
  - by intros v ->.
  - intros w. destruct (load_configuration py environ) as [v|g]; [done |].
    destruct (boto3_client environ (AWS_REGION g)); [done |].
    by intros [= <-].
  - by intros g client -> ->.
Qed.

(** C10. Without PRESIGNED_URL_EXPIRATION in the environment line 45 gives
    3600, and 3600 is the ExpiresIn of the call made for every URL.  With
    the variable set to the text [s], line 45 gives [n] exactly when [s]
    (in its ASCII form) is a decimal integer literal that denotes [n] and
    that the interpreter's digit limit lets through; a text that is no such
    literal raises ValueError there.  A ValueError of line 45 is the outcome
    of the module's start-up whatever line 51 would do, and a module that
    started carries the value of line 45. *)
Theorem C10_expiration_from_environment (py : interpreter)
    (environ : gmap string string) :
  (environ !! "PRESIGNED_URL_EXPIRATION" = None ->
   exists g : globals,
     load_configuration py environ = inr g
     /\ PRESIGNED_URL_EXPIRATION g = 3600
     /\ forall (w : world) (file_name b : string),
          module_globals w = g -> configured w b ->
          s3_calls (snd (get_generate_presigned_url (Some file_name) w)) =
            s3_calls w ++ [PresignCall "put_object" b file_name 3600 "PUT"])
  /\ (forall s : string,
        environ !! "PRESIGNED_URL_EXPIRATION" = Some s ->
        (forall n : Z,
           (exists g : globals,
              load_configuration py environ = inr g
              /\ PRESIGNED_URL_EXPIRATION g = n)
           <-> (exists digits : nat,
                  int_literal (ascii_form py s) n digits
                  /\ within_limit (max_str_digits py) digits))
        /\ ((forall (n : Z) (digits : nat),
               ~ int_literal (ascii_form py s) n digits) ->
            load_configuration py environ = inl (Str s)))
  /\ (forall boto3_client : boto3_factory,
        (forall v : value,
           load_configuration py environ = inl v ->
           module_init py boto3_client environ = ValueError v)
        /\ (forall w : world,
              module_init py boto3_client environ = Started w ->
              load_configuration py environ = inr (module_globals w))).
Proof.
  split; [| split].
  - intros Hunset. unfold load_configuration, os_getenv_default.
    rewrite Hunset. cbn [int].
    eexists. split; [reflexivity | split; [reflexivity |]].
    intros w file_name b Hg Hc.
    rewrite (handler_calls_once w file_name b Hc).
    unfold put_object_call. by rewrite Hg.
  - intros s Hset. unfold load_configuration, os_getenv_default.
    rewrite Hset. cbn [int]. unfold int_of_str.
    destruct (int_of_ascii (max_str_digits py) (ascii_form py s))
      as [n0|] eqn:Hint.
    + split.
      * intros n. split.
        -- intros (g & [= <-] & <-). cbn. by apply int_of_ascii_sound.
        -- intros (digits & Hlit & Hlim).
           rewrite (int_of_ascii_complete _ _ _ _ Hlit Hlim) in Hint.
           injection Hint as ->. by eexists.
      * intros Hno. apply int_of_ascii_sound in Hint as (digits & Hlit & _).
        by destruct (Hno _ _ Hlit).
    + split; [| done].
      intros n. split.
      * intros (g & [=] & _).
      * intros (digits & Hlit & Hlim).
        by rewrite (int_of_ascii_complete _ _ _ _ Hlit Hlim) in Hint.
  - intros boto3_client.
    destruct (module_init_after_configuration py boto3_client environ)
      as (H1 & H2 & _). by split.
Qed.

Lemma C10_witness :
  (exists g : globals,
     load_configuration Samples.plain_interpreter ∅ = inr g
     /\ PRESIGNED_URL_EXPIRATION g = 3600
     /\ forall (w : world) (file_name b : string),
          module_globals w = g -> configured w b ->
          s3_calls (snd (get_generate_presigned_url (Some file_name) w)) =
            s3_calls w ++ [PresignCall "put_object" b file_name 3600 "PUT"])
  /\ (exists g : globals,
        load_configuration Samples.plain_interpreter
          {[ "PRESIGNED_URL_EXPIRATION" := " +9_00 " ]} = inr g
        /\ PRESIGNED_URL_EXPIRATION g = 900)
  /\ load_configuration Samples.plain_interpreter
       {[ "PRESIGNED_URL_EXPIRATION" := "15m" ]} = inl (Str "15m")
  /\ load_configuration Samples.plain_interpreter
       {[ "PRESIGNED_URL_EXPIRATION" := String "4" (String "2" (String "031" "")) ]} =
       inl (Str (String "4" (String "2" (String "031" "")))).
Proof.
  split; [| split; [| split]].
  - apply (proj1 (C10_expiration_from_environment Samples.plain_interpreter ∅)).
    reflexivity.
  - apply (proj2 (proj1 (proj1 (proj2 (C10_expiration_from_environment
                                         Samples.plain_interpreter
                                         {[ "PRESIGNED_URL_EXPIRATION" := " +9_00 " ]}))
                           " +9_00 " (lookup_singleton_eq _ _)) 900)).
    exists 3%nat. split; [| left; by vm_compute].
    exists [" "%char], [" "%char], false, ["+"%char],
           ["9"%char; "_"%char; "0"%char; "0"%char], [9; 0; 0].
    repeat split; try reflexivity; [by right; left |].
    apply body_underscore; [reflexivity |].
    apply body_digit; [reflexivity |]. by apply body_last.
  - apply (proj2 (proj1 (proj2 (C10_expiration_from_environment
                                  Samples.plain_interpreter
                                  {[ "PRESIGNED_URL_EXPIRATION" := "15m" ]}))
                    "15m" (lookup_singleton_eq _ _))).
    by apply not_a_literal.
  - apply (proj2 (proj1 (proj2 (C10_expiration_from_environment
                                  Samples.plain_interpreter
                                  {[ "PRESIGNED_URL_EXPIRATION" :=
                                       String "4" (String "2" (String "031" "")) ]}))
                    _ (lookup_singleton_eq _ _))).
    by apply not_a_literal.
Defined.

(** * Further properties of the module *)

(** ** What the handler logs and lets out *)

Lemma append_assoc (a b c : string) : (a +:+ b) +:+ c = a +:+ b +:+ c.
Proof.
  induction a as [|x a IH]; [reflexivity |].
  change (String x ((a +:+ b) +:+ c) = String x (a +:+ b +:+ c)). by rewrite IH.
Qed.

Lemma contains_suffix (before needle : string) :
  contains needle (before +:+ needle).
Proof. exists before, "". by rewrite append_empty_r. Qed.

(** X1. Every run of the handler appends exactly one record to the log and
    keeps the earlier ones: an info record when it returns, an error record
    when it raises. *)
Theorem handler_logs_one_record (w : world) (file_name : string) :
  exists msg : string,
    log (snd (generate_presigned_url file_name w)) =
      log w ++ [match fst (generate_presigned_url file_name w) with
                | inr _ => LogInfo msg
                | inl _ => LogError msg
                end].
Proof.
  destruct (truthy (S3_BUCKET (module_globals w))) eqn:Ht.
  - destruct (truthy_inv w Ht) as [b Hc].
    rewrite (run_configured w file_name b Hc). cbv zeta.
    destruct (client_answer w b file_name) as [e|url];
      [destruct (is_ClientError e) |]; cbn; by eexists.
  - rewrite (run_unconfigured w file_name Ht). cbn. by eexists.
Qed.

(** X2. Whatever the signing client raises, its text is written to the
    log as an error record: also the text of an unexpected error, which the
    response does not show. *)
Theorem raised_error_text_is_logged (w : world) (file_name b : string)
    (e : exn) :
  configured w b ->
  client_answer w b file_name = inl e ->
  exists msg : string,
    log (snd (generate_presigned_url file_name w)) = log w ++ [LogError msg]
    /\ contains (str_exn e) msg.
Proof.
  intros Hc Ha. rewrite (run_configured w file_name b Hc). cbv zeta.
  rewrite Ha. destruct (is_ClientError e); cbn [snd log]; eexists;
    (split; [reflexivity |]).
  - rewrite <- append_assoc, <- append_assoc. apply contains_suffix.
  - apply contains_suffix.
Qed.

Lemma raised_error_text_is_logged_witness :
  exists msg : string,
    log (snd (generate_presigned_url "photo.jpg"
                (initial_world Samples.uploads Samples.no_credentials_client))) =
      [LogError msg]
    /\ contains "Unable to locate credentials" msg.
Proof.
  apply (raised_error_text_is_logged
           (initial_world Samples.uploads Samples.no_credentials_client)
           "photo.jpg" "uploads"
           (OtherException "NoCredentialsError" "Unable to locate credentials")).
  - split; [reflexivity | discriminate].
  - reflexivity.
Defined.

(** X3. The handler lets nothing out but its own results: it returns the
    two-field object for its file_name, or raises an HTTPException with
    status 500.  So the endpoint never answers with the server's plain
    "Internal Server Error": every body is a JSON object or a detail. *)
Theorem handler_outcome_shape (w : world) (file_name : string) :
  match fst (generate_presigned_url file_name w) with
  | inr o => exists url : string,
      o = [("presigned_url", url); ("object_key", file_name)]
  | inl e => exists detail : string, e = HTTPException 500 detail
  end
  /\ match body (fst (get_generate_presigned_url (Some file_name) w)) with
     | JSON _ | Detail _ => True
     | MissingParameter _ | PlainText _ => False
     end.
Proof.
  unfold get_generate_presigned_url.
  destruct (truthy (S3_BUCKET (module_globals w))) eqn:Ht.
  - destruct (truthy_inv w Ht) as [b Hc].
    rewrite (run_configured w file_name b Hc). cbv zeta.
    destruct (client_answer w b file_name) as [e|url];
      [destruct (is_ClientError e) |]; cbn; split; by eauto.
  - rewrite (run_unconfigured w file_name Ht). cbn. split; by eauto.
Qed.

(** ** A process serving requests one after the other *)

Lemma serve_all_cons (q : request) (qs : list request) (w : world) :
  serve_all (q :: qs) w =
    (fst (serve q w) :: fst (serve_all qs (snd (serve q w))),
     snd (serve_all qs (snd (serve q w)))).
Proof.
  cbn [serve_all]. destruct (serve q w) as [r w1]. cbn [fst snd].
  by destruct (serve_all qs w1).
Qed.

Lemma configured_after_serve (q : request) (w : world) (b : string) :
  configured w b -> configured (snd (serve q w)) b.
Proof.
  unfold configured. by rewrite (proj1 (serve_keeps_module q w)).
Qed.

(** X4. With the bucket configured, the signing client sees exactly one
    call per request that carries a file_name, in the order of the
    requests, each for that file_name; health checks and requests without
    file_name add none, and earlier calls stay in place. *)
Theorem calls_follow_requests (qs : list request) (w : world) (b : string) :
  configured w b ->
  s3_calls (snd (serve_all qs w)) =
    s3_calls w ++ map (put_object_call (module_globals w) b) (handled qs).
Proof.
  revert w. induction qs as [|q qs IH]; intros w Hc.
  - cbn. by rewrite app_nil_r.
  - rewrite serve_all_cons. cbn [snd].
    rewrite (IH _ (configured_after_serve q w b Hc)).
    rewrite (proj1 (serve_keeps_module q w)).
    destruct q as [[file_name|]|]; cbn [handled map]; try reflexivity.
    cbn [serve]. rewrite (handler_calls_once w file_name b Hc).
    by rewrite <- app_assoc.
Qed.

Lemma calls_follow_requests_witness :
  s3_calls (snd (serve_all
                   [GenerateUrl (Some "a.txt"); Health; GenerateUrl None;
                    GenerateUrl (Some "b.txt")]
                   (initial_world Samples.uploads Samples.denied_client))) =
    [ PresignCall "put_object" "uploads" "a.txt" 3600 "PUT";
      PresignCall "put_object" "uploads" "b.txt" 3600 "PUT" ].
Proof.
  apply (calls_follow_requests
           [GenerateUrl (Some "a.txt"); Health; GenerateUrl None;
            GenerateUrl (Some "b.txt")]
           (initial_world Samples.uploads Samples.denied_client) "uploads").
  split; [reflexivity | discriminate].
Defined.

Lemma unconfigured_serve_all (qs : list request) (w : world) :
  truthy (S3_BUCKET (module_globals w)) = false ->
  fst (serve_all qs w) = map unconfigured_answer qs
  /\ s3_calls (snd (serve_all qs w)) = s3_calls w.
Proof.
  revert w. induction qs as [|q qs IH]; intros w Ht; [done |].
  rewrite serve_all_cons. cbn [fst snd map].
  assert (Hq : fst (serve q w) = unconfigured_answer q
               /\ s3_calls (snd (serve q w)) = s3_calls w).
  { destruct q as [[file_name|]|]; cbn; try done.
    by rewrite (run_unconfigured w file_name Ht). }
  destruct Hq as [-> Hcalls].
  destruct (IH (snd (serve q w))) as [-> ->].
  - by rewrite (proj1 (serve_keeps_module q w)).
  - by rewrite Hcalls.
Qed.

(** X5. A missing or empty S3_BUCKET_NAME is not looked at when the module
    starts: if the expiration is read and the client is created, the module
    starts.  The process then answers every request that carries a
    file_name with the 500 "bucket not configured", still answers health
    checks with ok, and never calls the signing client, however many
    requests it serves. *)
Theorem process_without_bucket (py : interpreter)
    (boto3_client : boto3_factory) (environ : gmap string string)
    (expiration : Z) (client : s3_oracle) :
  environ !! "S3_BUCKET_NAME" = None \/ environ !! "S3_BUCKET_NAME" = Some "" ->
  int py (os_getenv_default environ "PRESIGNED_URL_EXPIRATION" (Int 3600)) =
    Some expiration ->
  boto3_client environ (environ !! "AWS_REGION") = inr client ->
  exists w : world,
    module_init py boto3_client environ = Started w
    /\ forall qs : list request,
         fst (serve_all qs w) = map unconfigured_answer qs
         /\ s3_calls (snd (serve_all qs w)) = [].
Proof.
  intros Hb Hint Hclient. unfold module_init, load_configuration, os_getenv.
  rewrite Hint. cbn [AWS_REGION]. rewrite Hclient.
  eexists. split; [reflexivity |]. intros qs.
  apply unconfigured_serve_all. cbn. by destruct Hb as [-> | ->].
Qed.

Lemma process_without_bucket_witness :
  exists w : world,
    module_init Samples.plain_interpreter Samples.boto3_ok
      {[ "S3_BUCKET_NAME" := "" ]} = Started w
    /\ forall qs : list request,
         fst (serve_all qs w) = map unconfigured_answer qs
         /\ s3_calls (snd (serve_all qs w)) = [].
Proof.
  apply (process_without_bucket Samples.plain_interpreter Samples.boto3_ok
           {[ "S3_BUCKET_NAME" := "" ]} 3600 Samples.signing_client).
  - right. apply lookup_singleton_eq.
  - by vm_compute.
  - reflexivity.
Defined.

(** X6. The log only grows: after any sequence of requests it is the
    earlier log followed by one record per request that reached the
    handler. *)
Theorem log_grows_by_handled_requests (qs : list request) (w : world) :
  exists new : list log_record,
    log (snd (serve_all qs w)) = log w ++ new
    /\ length new = length (handled qs).
Proof.
  revert w. induction qs as [|q qs IH]; intros w.
  - exists []. cbn. by rewrite app_nil_r.
  - rewrite serve_all_cons. cbn [snd].
    destruct (IH (snd (serve q w))) as (new & -> & Hlen).
    assert (Hq : exists one, log (snd (serve q w)) = log w ++ one
                             /\ length one = length (handled [q])).
    { destruct q as [[file_name|]|]; cbn [serve handled];
        try (exists []; cbn; by rewrite app_nil_r).
      unfold get_generate_presigned_url.
      destruct (truthy (S3_BUCKET (module_globals w))) eqn:Ht.
      - destruct (truthy_inv w Ht) as [b Hc].
        rewrite (run_configured w file_name b Hc). cbv zeta.
        destruct (client_answer w b file_name) as [e|url];
          [destruct (is_ClientError e) |]; cbn; by eexists [_].
      - rewrite (run_unconfigured w file_name Ht). cbn. by eexists [_]. }
    destruct Hq as (one & -> & Hone).
    exists (one ++ new). rewrite <- app_assoc. split; [done |].
    rewrite length_app, Hlen, Hone.
    by destruct q as [[file_name|]|].
Qed.

(** ** Start-up and the environment *)

(** X8. The expiration is not range-checked.  Whatever integer the text of
    PRESIGNED_URL_EXPIRATION denotes, zero and negative ones included, the
    module starts with it (when the client is created) and the handler
    passes it on unchanged as the ExpiresIn of its call. *)
Theorem expiration_is_not_range_checked (py : interpreter)
    (boto3_client : boto3_factory) (environ : gmap string string)
    (s : string) (n : Z) (digits : nat) (client : s3_oracle) :
  environ !! "PRESIGNED_URL_EXPIRATION" = Some s ->
  int_literal (ascii_form py s) n digits ->
  within_limit (max_str_digits py) digits ->
  boto3_client environ (environ !! "AWS_REGION") = inr client ->
  exists w0 : world,
    module_init py boto3_client environ = Started w0
    /\ PRESIGNED_URL_EXPIRATION (module_globals w0) = n
    /\ forall (w : world) (file_name b : string),
         module_globals w = module_globals w0 -> configured w b ->
         s3_calls (snd (get_generate_presigned_url (Some file_name) w)) =
           s3_calls w ++ [PresignCall "put_object" b file_name n "PUT"].
Proof.
  intros Hset Hlit Hlim Hclient.
  unfold module_init, load_configuration, os_getenv, os_getenv_default.
  rewrite Hset. cbn [int]. unfold int_of_str.
  rewrite (int_of_ascii_complete _ _ _ _ Hlit Hlim).
  cbn [AWS_REGION]. rewrite Hclient.
  eexists. split; [reflexivity | split; [reflexivity |]].
  intros w file_name b Hg Hc.
  rewrite (handler_calls_once w file_name b Hc).
  unfold put_object_call. by rewrite Hg.
Qed.

Lemma expiration_is_not_range_checked_witness :
  exists w0 : world,
    module_init Samples.plain_interpreter Samples.boto3_ok
      {[ "PRESIGNED_URL_EXPIRATION" := "-5" ]} = Started w0
    /\ PRESIGNED_URL_EXPIRATION (module_globals w0) = -5
    /\ forall (w : world) (file_name b : string),
         module_globals w = module_globals w0 -> configured w b ->
         s3_calls (snd (get_generate_presigned_url (Some file_name) w)) =
           s3_calls w ++ [PresignCall "put_object" b file_name (-5) "PUT"].
Proof.
  apply (expiration_is_not_range_checked Samples.plain_interpreter Samples.boto3_ok
           {[ "PRESIGNED_URL_EXPIRATION" := "-5" ]} "-5" (-5) 1
           Samples.signing_client).
  - apply lookup_singleton_eq.
  - exists [], [], true, ["-"%char], ["5"%char], [5].
    repeat split; try reflexivity; [by right; right |].
    by apply body_last.
  - left. by vm_compute.
  - reflexivity.
Defined.

(** X9. An integer literal of more digits than the check threshold and
    than the interpreter's digit limit (when there is one) makes start-up
    fail with ValueError, like a text that is no integer. *)
Theorem literal_over_digit_limit_fails (py : interpreter)
    (boto3_client : boto3_factory) (environ : gmap string string)
    (s : string) (n : Z) (digits : nat) :
  environ !! "PRESIGNED_URL_EXPIRATION" = Some s ->
  int_literal (ascii_form py s) n digits ->
  (str_digits_check_threshold < N.of_nat digits)%N ->
  (0 < max_str_digits py)%N -> (max_str_digits py < N.of_nat digits)%N ->
  module_init py boto3_client environ = ValueError (Str s).
Proof.
  intros Hset Hlit Hlong Hon Hover.
  unfold module_init, load_configuration, os_getenv_default.
  rewrite Hset. cbn [int]. unfold int_of_str.
  rewrite (int_of_ascii_literal _ _ _ _ Hlit).
  apply N.ltb_lt in Hlong, Hon, Hover. by rewrite Hlong, Hon, Hover.
Qed.

Lemma literal_over_digit_limit_fails_witness :
  module_init Samples.plain_interpreter Samples.boto3_ok
    {[ "PRESIGNED_URL_EXPIRATION" := Samples.long_literal ]} =
    ValueError (Str Samples.long_literal).
Proof.
  apply (literal_over_digit_limit_fails Samples.plain_interpreter Samples.boto3_ok
           {[ "PRESIGNED_URL_EXPIRATION" := Samples.long_literal ]}
           Samples.long_literal (positional (repeat 1 4301)) 4301).
  - apply lookup_singleton_eq.
  - unfold ascii_form.
    replace (is_ascii_text Samples.long_literal) with true by (by vm_compute).
    unfold Samples.long_literal. rewrite list_ascii_of_string_of_list_ascii.
    exists [], [], false, [], (repeat "1"%char 4301), (repeat 1 4301).
    rewrite app_nil_r. repeat split; try reflexivity; [by left |].
    by apply (literal_body_repeat "1" 1 4300).
  - by vm_compute.
  - by vm_compute.
  - by vm_compute.
Defined.
